(** * Settings store and theme preferences panel

    A shallow embedding of [ProjectSettings.h] (the per-project settings
    store) and of [ThemePrefs.cpp] (the theme preferences panel and its
    button handlers), with the properties their specification states.

    Conventions.  A C++ [int] is a [Z] (no arithmetic is performed on the
    fields below, so no wrap-around occurs); a [double] is an IEEE-754
    binary64 value, represented by the Standard Library's [spec_float];
    [wxString], [std::string] and translatable message ids are [string]s.
    Handlers that call collaborators and may see exceptions run in a small
    state-and-exception monad over a [World]. *)

From Stdlib Require Import ZArith List Bool String Ascii Lia.
From Stdlib Require Import Floats.SpecFloat.
Import ListNotations.
Open Scope string_scope.
Close Scope list_scope.
Open Scope list_scope.
Open Scope Z_scope.

(* ================================================================= *)
(** ** ProjectSettings.h *)

(** The anonymous snap enumeration. *)
Definition SNAP_OFF : Z := 0.
Definition SNAP_NEAREST : Z := 1.
Definition SNAP_PRIOR : Z := 2.

(** [namespace ToolCodes { enum { ... }; }] *)
Module ToolCodes.
Definition selectTool : Z := 0.
Definition envelopeTool : Z := 1.
Definition drawTool : Z := 2.
Definition zoomTool : Z := 3.
Definition multiTool : Z := 4.
Definition numTools : Z := 5.
Definition firstTool : Z := selectTool.
Definition lastTool : Z := multiTool.

(** The enumerated tool codes, [selectTool] through [multiTool]. *)
Definition tools : list Z :=
  [selectTool; envelopeTool; drawTool; zoomTool; multiTool].

(** [t] is one of the enumerated tool codes. *)
Definition is_tool (t : Z) : bool := (firstTool <=? t) && (t <=? lastTool).
End ToolCodes.

(** The range of a C++ [int] on the supported platforms. *)
Definition INT_MIN : Z := - 2 ^ 31.
Definition INT_MAX : Z := 2 ^ 31 - 1.
Definition is_int (z : Z) : bool := (INT_MIN <=? z) && (z <=? INT_MAX).

(** A [double]: precision 53, maximal exponent 1024. *)
Definition double : Type := spec_float.
Definition is_double (d : double) : bool := valid_binary 53 1024 d.

(** The literal [1.5], that is [3 * 2^51 * 2^(-52)] in canonical form. *)
Definition one_point_five : double :=
  S754_finite false 6755399441055744 (-52).

(** [NumericFormatSymbol] is an identifier with a translatable label;
    only its internal name matters here. *)
Definition NumericFormatSymbol : Type := string.

(** The data members of [class ProjectSettings], in declaration order
    (the back reference [mProject] carries no settings and is left out). *)
Record ProjectSettings : Type := mkProjectSettings {
  mSelectionFormat : NumericFormatSymbol;
  mFrequencySelectionFormatName : NumericFormatSymbol;
  mBandwidthSelectionFormatName : NumericFormatSymbol;
  mAudioTimeFormat : NumericFormatSymbol;
  mSoloPref : string;
  mPlaySpeed : double;
  mSnapTo : Z;
  mCurrentTool : Z;
  mTracksFitVerticallyZoomed : bool;
  mShowId3Dialog : bool;
  mIsSyncLocked : bool;
  mEmptyCanBeDirty : bool;
  mShowSplashScreen : bool
}.

(** The accessors defined inline in the header. *)

Definition GetTracksFitVerticallyZoomed (s : ProjectSettings) : bool :=
  mTracksFitVerticallyZoomed s.

Definition SetTracksFitVerticallyZoomed (flag : bool) (s : ProjectSettings)
  : ProjectSettings :=
  mkProjectSettings
    (mSelectionFormat s) (mFrequencySelectionFormatName s)
    (mBandwidthSelectionFormatName s) (mAudioTimeFormat s) (mSoloPref s)
    (mPlaySpeed s) (mSnapTo s) (mCurrentTool s)
    flag (mShowId3Dialog s) (mIsSyncLocked s)
    (mEmptyCanBeDirty s) (mShowSplashScreen s).

Definition GetShowId3Dialog (s : ProjectSettings) : bool :=
  mShowId3Dialog s.

Definition SetShowId3Dialog (flag : bool) (s : ProjectSettings)
  : ProjectSettings :=
  mkProjectSettings
    (mSelectionFormat s) (mFrequencySelectionFormatName s)
    (mBandwidthSelectionFormatName s) (mAudioTimeFormat s) (mSoloPref s)
    (mPlaySpeed s) (mSnapTo s) (mCurrentTool s)
    (mTracksFitVerticallyZoomed s) flag (mIsSyncLocked s)
    (mEmptyCanBeDirty s) (mShowSplashScreen s).

(** [void SetTool(int tool) { mCurrentTool = tool; }] *)
Definition SetTool (tool : Z) (s : ProjectSettings) : ProjectSettings :=
  mkProjectSettings
    (mSelectionFormat s) (mFrequencySelectionFormatName s)
    (mBandwidthSelectionFormatName s) (mAudioTimeFormat s) (mSoloPref s)
    (mPlaySpeed s) (mSnapTo s) tool
    (mTracksFitVerticallyZoomed s) (mShowId3Dialog s) (mIsSyncLocked s)
    (mEmptyCanBeDirty s) (mShowSplashScreen s).

(** [int GetTool() const { return mCurrentTool; }] *)
Definition GetTool (s : ProjectSettings) : Z := mCurrentTool s.

(** [mPlaySpeed.load(std::memory_order_relaxed)], seen from the thread
    that owns the object. *)
Definition GetPlaySpeed (s : ProjectSettings) : double := mPlaySpeed s.

(** [mPlaySpeed.store(value, std::memory_order_relaxed)], likewise. *)
Definition SetPlaySpeed (value : double) (s : ProjectSettings)
  : ProjectSettings :=
  mkProjectSettings
    (mSelectionFormat s) (mFrequencySelectionFormatName s)
    (mBandwidthSelectionFormatName s) (mAudioTimeFormat s) (mSoloPref s)
    value (mSnapTo s) (mCurrentTool s)
    (mTracksFitVerticallyZoomed s) (mShowId3Dialog s) (mIsSyncLocked s)
    (mEmptyCanBeDirty s) (mShowSplashScreen s).

Definition IsSoloSimple (s : ProjectSettings) : bool :=
  String.eqb (mSoloPref s) "Simple".
Definition IsSoloNone (s : ProjectSettings) : bool :=
  String.eqb (mSoloPref s) "None".
Definition EmptyCanBeDirty (s : ProjectSettings) : bool := mEmptyCanBeDirty s.
Definition GetShowSplashScreen (s : ProjectSettings) : bool :=
  mShowSplashScreen s.

(** An object as the header initialises it: the three flags and the
    atomic have default member initialisers ([false], [true], [false],
    and [{}], which is zero); the members without one are given by the
    constructor and are arguments here. *)
Definition initial_settings
    (selection frequency bandwidth audioTime : NumericFormatSymbol)
    (solo : string) (snap tool : Z) (emptyDirty splash : bool)
  : ProjectSettings :=
  mkProjectSettings selection frequency bandwidth audioTime solo
    (S754_zero false) snap tool false true false emptyDirty splash.

(** The mutating member functions whose bodies the header gives, as
    commands, and a run of a sequence of them on one object. *)
Inductive SettingsOp : Type :=
| OpSetTracksFitVerticallyZoomed (flag : bool)
| OpSetShowId3Dialog (flag : bool)
| OpSetTool (tool : Z)
| OpSetPlaySpeed (value : double).

Definition apply_op (op : SettingsOp) (s : ProjectSettings)
  : ProjectSettings :=
  match op with
  | OpSetTracksFitVerticallyZoomed flag => SetTracksFitVerticallyZoomed flag s
  | OpSetShowId3Dialog flag => SetShowId3Dialog flag s
  | OpSetTool tool => SetTool tool s
  | OpSetPlaySpeed value => SetPlaySpeed value s
  end.

Fixpoint apply_ops (ops : list SettingsOp) (s : ProjectSettings)
  : ProjectSettings :=
  match ops with
  | [] => s
  | op :: rest => apply_ops rest (apply_op op s)
  end.

(** The argument of an operation is acceptable when, for [SetTool], it is
    an enumerated tool code; the other operations do not touch the tool. *)
Definition op_tool_ok (op : SettingsOp) : bool :=
  match op with
  | OpSetTool tool => ToolCodes.is_tool tool
  | _ => true
  end.

(** A project whose settings start with the selection tool. *)
Definition sample_settings : ProjectSettings :=
  initial_settings "hh:mm:ss" "Hz" "octaves" "hh:mm:ss" "Simple"
    SNAP_OFF ToolCodes.selectTool false true.

(* ================================================================= *)
(** ** ThemePrefs.cpp *)

(** *** Exceptions and outcomes *)

(** Modelled from the spec: the enumeration [ArchiveError::Type] is
    declared in [lib-theme/exceptions/ArchiveError.h], a header that is
    not among these sources; the two sub-kinds are those the taxonomy
    names and the [switch] handles. *)
Inductive ArchiveError_Type : Type :=
| InvalidArchive
| OperationalError.

(** The exceptions a call made by this file can raise.  The two classes
    of [ThemeExceptions] are taken, as the taxonomy has them, to be
    unrelated to [std::invalid_argument] and [std::bad_alloc]; an
    exception of any other class has no [catch] clause in this file. *)
Inductive exn : Type :=
| std_invalid_argument (what : string)
| std_bad_alloc
| IncompatibleTheme
| ArchiveError (GetErrorType : ArchiveError_Type)
| unrelated_exception (what : string).

Inductive Outcome (A : Type) : Type :=
| Returned (a : A)
| Thrown (e : exn).
Arguments Returned {A} a.
Arguments Thrown {A} e.

(** *** Constants of the toolkit *)

Definition wxID_OK : Z := 5100.
Definition wxID_CANCEL : Z := 5101.
Definition wxOK : Z := 4.

(** [wxDEFINE_EVENT(EVT_THEME_CHANGE, wxCommandEvent)], next to the event
    type the settings header declares. *)
Inductive wxEventType : Type :=
| EVT_THEME_CHANGE
| EVT_PROJECT_SETTINGS_CHANGE.

Definition wxEventType_eqb (a b : wxEventType) : bool :=
  match a, b with
  | EVT_THEME_CHANGE, EVT_THEME_CHANGE => true
  | EVT_PROJECT_SETTINGS_CHANGE, EVT_PROJECT_SETTINGS_CHANGE => true
  | _, _ => false
  end.

(** [enum eThemePrefsIds] *)
Definition idLoadThemeCache : Z := 7000.
Definition idSaveThemeCache : Z := 7001.
Definition idLoadThemeComponents : Z := 7002.
Definition idSaveThemeComponents : Z := 7003.
Definition idReadThemeInternal : Z := 7004.
Definition idSaveThemeAsCode : Z := 7005.

(** *** The preference store *)

(** The global preference store holds typed entries under string keys;
    a read of a key yields the value the store has for it. *)
Record Prefs : Type := mkPrefs {
  pref_string : string -> string;
  pref_bool : string -> bool
}.

Definition write_string (key value : string) (p : Prefs) : Prefs :=
  mkPrefs (fun k => if String.eqb k key then value else pref_string p k)
          (pref_bool p).

Definition write_bool (key : string) (value : bool) (p : Prefs) : Prefs :=
  mkPrefs (pref_string p)
          (fun k => if String.eqb k key then value else pref_bool p k).

(** *** Collaborators

    The theme system ([theTheme]), the colour tables ([AColor]), the
    theme-package library and the two settings the panel binds live in
    other files; the panel only calls them.  A call on [theTheme] yields
    an outcome and the theme system's next state; a call on the local
    [ThemePackage] yields the package's next state or throws. *)
Class Collaborators : Type := {
  ThemeState : Type;
  teThemeType : Type;
  Colors : Type;
  ThemePackage : Type;
  LoadComponents : ThemeState -> Outcome unit * ThemeState;
  SaveComponents : ThemeState -> Outcome unit * ThemeState;
  ReadImageCache : option teThemeType -> ThemeState
                   -> Outcome unit * ThemeState;
  CreateImageCache : ThemeState -> Outcome unit * ThemeState;
  WriteImageMap : ThemeState -> Outcome unit * ThemeState;
  SaveThemeAsCode : ThemeState -> Outcome unit * ThemeState;
  WriteImageDefs : ThemeState -> Outcome unit * ThemeState;
  GetFallbackThemeType : ThemeState -> teThemeType;
  AColor_ReInit : ThemeState -> Colors -> Colors;
  default_package : ThemePackage;
  OpenPackage : string -> ThemePackage -> Outcome ThemePackage;
  ParsePackage : ThemePackage -> Outcome ThemePackage;
  GUITheme_key : string;
  GUIBlendThemes_key : string
}.

(** *** What a run of a handler does to the outside *)

Inductive Effect : Type :=
| FileDialogShown (title : string)
| PackageOpened (path : string)
| PackageParsed
| MessageBoxShown (message caption : string) (style : Z)
| EventProcessed (event : wxEventType).

(** The message boxes of a trace, as (message, caption) pairs. *)
Fixpoint message_boxes (t : list Effect) : list (string * string) :=
  match t with
  | [] => []
  | MessageBoxShown message caption _ :: rest =>
      (message, caption) :: message_boxes rest
  | _ :: rest => message_boxes rest
  end.

(** The events of a trace. *)
Fixpoint events (t : list Effect) : list wxEventType :=
  match t with
  | [] => []
  | EventProcessed event :: rest => event :: events rest
  | _ :: rest => events rest
  end.

(** How many theme-changed notifications a trace has. *)
Definition theme_changes (t : list Effect) : nat :=
  List.length (filter (wxEventType_eqb EVT_THEME_CHANGE) (events t)).

(** Whether a trace has a call of [OpenPackage] or [ParsePackage]. *)
Definition touches_package (t : list Effect) : bool :=
  existsb (fun e => match e with
                    | PackageOpened _ | PackageParsed => true
                    | _ => false
                    end) t.

(** [XO(fmt).Format(arg)] for a format with one [%s]. *)
Fixpoint Format (fmt arg : string) : string :=
  match fmt with
  | EmptyString => EmptyString
  | String "%"%char (String "s"%char rest) => (arg ++ rest)%string
  | String c rest => String c (Format rest arg)
  end.

(** The answer of the user to the file dialog. *)
Record FileDialogReply : Type := mkReply {
  modal_result : Z;
  GetPath : string
}.

(** The failure classes of the taxonomy. *)
Inductive FailureClass : Type :=
| MalformedInput
| OutOfMemory
| VersionIncompatible
| ArchiveInvalidStructure
| ArchiveOperational.

(** The class of an exception, if the taxonomy has one for it. *)
Definition failure_class (e : exn) : option FailureClass :=
  match e with
  | std_invalid_argument _ => Some MalformedInput
  | std_bad_alloc => Some OutOfMemory
  | IncompatibleTheme => Some VersionIncompatible
  | ArchiveError InvalidArchive => Some ArchiveInvalidStructure
  | ArchiveError OperationalError => Some ArchiveOperational
  | unrelated_exception _ => None
  end.

(** The message the specification names for each failure class. *)
Definition named_message (c : FailureClass) : string :=
  match c with
  | MalformedInput => "Invalid theme"
  | OutOfMemory => "Memory error"
  | VersionIncompatible => "Incompatible theme"
  | ArchiveInvalidStructure => "Invalid archive"
  | ArchiveOperational => "Operational error"
  end.

Section Panel.
Context {collaborators : Collaborators}.

(** The program state the handlers can reach, and the trace of what
    they did to the user and to their collaborators. *)
Record World : Type := mkWorld {
  theTheme : ThemeState;
  aColor : Colors;
  gPrefs : Prefs;
  trace : list Effect
}.

(** The state without the trace. *)
Definition program_state (w : World) : ThemeState * Colors * Prefs :=
  (theTheme w, aColor w, gPrefs w).

(** The world after further effects, the program state being kept. *)
Definition extend (w : World) (effects : list Effect) : World :=
  mkWorld (theTheme w) (aColor w) (gPrefs w) (trace w ++ effects).

(** A computation that may change the world and may throw. *)
Definition M (A : Type) : Type := World -> Outcome A * World.

Definition ret {A : Type} (a : A) : M A := fun w => (Returned a, w).

Definition bind {A B : Type} (m : M A) (k : A -> M B) : M B :=
  fun w =>
    match m w with
    | (Returned a, w') => k a w'
    | (Thrown e, w') => (Thrown e, w')
    end.

(** [try body catch ...]: [clauses e] is the handler of the first
    clause that matches [e], if any; otherwise [e] propagates. *)
Definition try_catch {A : Type} (body : M A)
    (clauses : exn -> option (M A)) : M A :=
  fun w =>
    match body w with
    | (Returned a, w') => (Returned a, w')
    | (Thrown e, w') =>
        match clauses e with
        | Some handler => handler w'
        | None => (Thrown e, w')
        end
    end.

Definition log (e : Effect) : M unit :=
  fun w => (Returned tt,
            mkWorld (theTheme w) (aColor w) (gPrefs w) (trace w ++ [e])).

(** A call of a member function of [theTheme]. *)
Definition on_theTheme (f : ThemeState -> Outcome unit * ThemeState)
  : M unit :=
  fun w =>
    let (o, t) := f (theTheme w) in
    (o, mkWorld t (aColor w) (gPrefs w) (trace w)).

(** A call of a member function of a local package object. *)
Definition on_package {A : Type} (e : Effect) (o : Outcome A) : M A :=
  fun w =>
    (o, mkWorld (theTheme w) (aColor w) (gPrefs w) (trace w ++ [e])).

(** [AColor::ReInit()] *)
Definition AColor_ReInit_call : M unit :=
  fun w =>
    (Returned tt,
     mkWorld (theTheme w) (AColor_ReInit (theTheme w) (aColor w))
             (gPrefs w) (trace w)).

(** [wxTheApp->SafelyProcessEvent(e)] *)
Definition SafelyProcessEvent (event : wxEventType) : M unit :=
  log (EventProcessed event).

Definition AudacityMessageBox (message caption : string) (style : Z)
  : M unit :=
  log (MessageBoxShown message caption style).

(** [fileDialog.ShowModal()] for a dialog with the given title. *)
Definition ShowModal (title : string) (user : FileDialogReply) : M Z :=
  bind (log (FileDialogShown title)) (fun _ => ret (modal_result user)).

End Panel.

Notation "x <- m ;; k" := (bind m (fun x => k))
  (at level 61, m at next level, right associativity).
Notation "m ;; k" := (bind m (fun _ => k))
  (at level 61, right associativity).

Section Handlers.
Context {collaborators : Collaborators}.

(** The [catch] clauses of [OnLoadThemePackage], in source order. *)
Definition OnLoadThemePackage_clauses (e : exn) : option (M unit) :=
  match e with
  | std_invalid_argument what =>
      Some (AudacityMessageBox (Format "Error: %s" what)
                               "Invalid theme" wxOK)
  | std_bad_alloc =>
      Some (AudacityMessageBox "Cannot allocate memory"
                               "Memory error" wxOK)
  | IncompatibleTheme =>
      Some (AudacityMessageBox
              "Theme package incompatible with this version of Tenacity"
              "Incompatible theme" wxOK)
  | ArchiveError ty =>
      Some (match ty with
            | InvalidArchive =>
                AudacityMessageBox "Theme package invalid"
                                   "Invalid archive" wxOK
            | OperationalError =>
                AudacityMessageBox "Error while working on archive"
                                   "Operational error" wxOK
            end)
  | unrelated_exception _ => None
  end.

(** [void ThemePrefs::OnLoadThemePackage(wxCommandEvent&)]; [user] is
    what the user does with the file dialog. *)
Definition OnLoadThemePackage (user : FileDialogReply) : M unit :=
  result <- ShowModal "Load Theme" user ;;
  if result =? wxID_CANCEL then ret tt
  else
    let path := GetPath user in
    let theme := default_package in
    try_catch
      (theme <- on_package (PackageOpened path) (OpenPackage path theme) ;;
       _ <- on_package PackageParsed (ParsePackage theme) ;;
       AudacityMessageBox "Package OK!" "Success!" wxOK)
      OnLoadThemePackage_clauses.

(** [void ThemePrefs::ApplyUpdatedImages()] *)
Definition ApplyUpdatedImages : M unit :=
  AColor_ReInit_call ;;
  SafelyProcessEvent EVT_THEME_CHANGE.

(** Load Theme from multiple png files. *)
Definition OnLoadThemeComponents : M unit :=
  on_theTheme LoadComponents ;;
  ApplyUpdatedImages.

(** Save Theme to multiple png files. *)
Definition OnSaveThemeComponents : M unit :=
  on_theTheme SaveComponents.

(** Load Theme from single png file. *)
Definition OnLoadThemeCache : M unit :=
  on_theTheme (ReadImageCache None) ;;
  ApplyUpdatedImages.

(** Save Theme to single png file. *)
Definition OnSaveThemeCache : M unit :=
  on_theTheme CreateImageCache ;;
  on_theTheme WriteImageMap.

(** Read Theme from internal storage. *)
Definition OnReadThemeInternal : M unit :=
  (fun w =>
     on_theTheme
       (ReadImageCache (Some (GetFallbackThemeType (theTheme w)))) w) ;;
  ApplyUpdatedImages.

(** Save Theme as C source code. *)
Definition OnSaveThemeAsCode : M unit :=
  on_theTheme SaveThemeAsCode ;;
  on_theTheme WriteImageDefs.

(** The event table: the handler a button id is wired to. *)
Definition event_table (id : Z) : option (M unit) :=
  if id =? idLoadThemeCache then Some OnLoadThemeCache
  else if id =? idSaveThemeCache then Some OnSaveThemeCache
  else if id =? idLoadThemeComponents then Some OnLoadThemeComponents
  else if id =? idSaveThemeComponents then Some OnSaveThemeComponents
  else if id =? idReadThemeInternal then Some OnReadThemeInternal
  else if id =? idSaveThemeAsCode then Some OnSaveThemeAsCode
  else None.

(** The handlers the notification contract of the specification speaks
    of, by direction. *)
Inductive ThemeFileHandler : Type :=
| LoadImageCache
| SaveImageCache
| LoadThemeComponents
| SaveThemeComponents.

Definition handler_of (h : ThemeFileHandler) : M unit :=
  match h with
  | LoadImageCache => OnLoadThemeCache
  | SaveImageCache => OnSaveThemeCache
  | LoadThemeComponents => OnLoadThemeComponents
  | SaveThemeComponents => OnSaveThemeComponents
  end.

Definition is_load (h : ThemeFileHandler) : bool :=
  match h with
  | LoadImageCache | LoadThemeComponents => true
  | SaveImageCache | SaveThemeComponents => false
  end.

(** Opening and parsing the package at [path] fails with [e]. *)
Definition package_fails (path : string) (e : exn) : Prop :=
  OpenPackage path default_package = Thrown e \/
  exists opened,
    OpenPackage path default_package = Returned opened /\
    ParsePackage opened = Thrown e.

(** Opening and parsing the package at [path] succeed. *)
Definition package_ok (path : string) : Prop :=
  exists opened parsed,
    OpenPackage path default_package = Returned opened /\
    ParsePackage opened = Returned parsed.

End Handlers.

(** *** The panel and the shuttle *)

(** The two directions in which the panel runs its exchange routine. *)
Inductive teShuttleMode : Type :=
| eIsCreatingFromPrefs
| eIsSavingToPrefs.

(** A control of the panel with the value it shows. *)
Inductive Control : Type :=
| Choice (prompt selection : string)
| CheckBox (prompt : string) (checked : bool)
| FixedText (text : string)
| Button (id : option Z) (label : string).

(** Modelled from the spec: [class ShuttleGui] ([shuttle/ShuttleGui.h])
    is not among these sources.  One description of the bindings
    between stored fields and controls serves both directions: in the
    load direction a bound control is created showing the stored value
    of its key, in the save direction the value of the control is
    written back under its key; controls are matched by their order of
    creation. *)
Record ShuttleGui : Type := mkShuttle {
  mShuttleMode : teShuttleMode;
  shuttle_prefs : Prefs;
  shuttle_controls : list Control;
  shuttle_next : nat
}.

(** The calls [PopulateOrExchange] makes on its shuttle. *)
Inductive ShuttleCall : Type :=
| SetBorder (width : Z)
| StartScroller
| EndScroller
| StartStatic (title : string)
| EndStatic
| StartMultiColumn (columns : Z)
| EndMultiColumn
| StartHorizontalLay
| EndHorizontalLay
| TieChoice (prompt key : string)
| TieCheckBox (prompt key : string)
| AddFixedText (text : string)
| AddButton (id : option Z) (label : string).

(** A call that produces a control without a binding. *)
Definition add_control (c : Control) (S : ShuttleGui) : ShuttleGui :=
  match mShuttleMode S with
  | eIsCreatingFromPrefs =>
      mkShuttle (mShuttleMode S) (shuttle_prefs S)
                (shuttle_controls S ++ [c]) (shuttle_next S)
  | eIsSavingToPrefs =>
      mkShuttle (mShuttleMode S) (shuttle_prefs S)
                (shuttle_controls S) (Datatypes.S (shuttle_next S))
  end.

(** Modelled from the spec: the members of [ShuttleGui], which is not
    among these sources; layout calls move no data. *)
Definition shuttle_call (c : ShuttleCall) (S : ShuttleGui) : ShuttleGui :=
  match c with
  | TieChoice prompt key =>
      match mShuttleMode S with
      | eIsCreatingFromPrefs =>
          add_control (Choice prompt (pref_string (shuttle_prefs S) key)) S
      | eIsSavingToPrefs =>
          let prefs :=
            match nth_error (shuttle_controls S) (shuttle_next S) with
            | Some (Choice _ selection) =>
                write_string key selection (shuttle_prefs S)
            | _ => shuttle_prefs S
            end in
          mkShuttle (mShuttleMode S) prefs
                    (shuttle_controls S) (Datatypes.S (shuttle_next S))
      end
  | TieCheckBox prompt key =>
      match mShuttleMode S with
      | eIsCreatingFromPrefs =>
          add_control (CheckBox prompt (pref_bool (shuttle_prefs S) key)) S
      | eIsSavingToPrefs =>
          let prefs :=
            match nth_error (shuttle_controls S) (shuttle_next S) with
            | Some (CheckBox _ checked) =>
                write_bool key checked (shuttle_prefs S)
            | _ => shuttle_prefs S
            end in
          mkShuttle (mShuttleMode S) prefs
                    (shuttle_controls S) (Datatypes.S (shuttle_next S))
      end
  | AddFixedText text => add_control (FixedText text) S
  | AddButton id label => add_control (Button id label) S
  | _ => S
  end.

Section Exchange.
Context {collaborators : Collaborators}.

(** The body of [ThemePrefs::PopulateOrExchange], call by call, for a
    build without [_DEBUG]; the two long explanatory texts are cut to
    their first sentence. *)
Definition PopulateOrExchange_calls : list ShuttleCall :=
  [ SetBorder 2;
    StartScroller;
    StartStatic "Theme Settings";
      StartMultiColumn 2;
        TieChoice "Th&eme:" GUITheme_key;
      EndMultiColumn;
      TieCheckBox "B&lend system and Tenacity theme" GUIBlendThemes_key;
    EndStatic;
    StartStatic "Info";
      AddFixedText "Themability is an experimental feature.";
      AddFixedText "Saving and loading individual theme files uses a separate file for each image, but is otherwise the same idea.";
    EndStatic;
    StartStatic "Theme Cache - Images && Color";
      StartHorizontalLay;
        AddButton (Some idSaveThemeCache) "Save Theme Cache";
        AddButton (Some idLoadThemeCache) "Load Theme Cache";
        AddButton (Some idReadThemeInternal) "&Defaults";
      EndHorizontalLay;
    EndStatic;
    StartStatic "Individual Theme Files";
      StartHorizontalLay;
        AddButton (Some idSaveThemeComponents) "Save Files";
        AddButton (Some idLoadThemeComponents) "Load Files";
      EndHorizontalLay;
    EndStatic;
    StartStatic "Experimental - Theme Packages";
      StartHorizontalLay;
        AddButton None "Load Theme Package";
      EndHorizontalLay;
    EndStatic;
    EndScroller ].

Definition PopulateOrExchange (S : ShuttleGui) : ShuttleGui :=
  fold_left (fun S c => shuttle_call c S) PopulateOrExchange_calls S.

(** The panel object: the controls it owns. *)
Record ThemePrefs : Type := mkThemePrefs {
  controls : list Control
}.

(** [void ThemePrefs::Populate()], run by the constructor. *)
Definition Populate : M ThemePrefs :=
  fun w =>
    let S := PopulateOrExchange
               (mkShuttle eIsCreatingFromPrefs (gPrefs w) [] 0%nat) in
    (Returned (mkThemePrefs (shuttle_controls S)),
     mkWorld (theTheme w) (aColor w) (shuttle_prefs S) (trace w)).

(** [bool ThemePrefs::Commit()] *)
Definition Commit (this : ThemePrefs) : M bool :=
  fun w =>
    let S := PopulateOrExchange
               (mkShuttle eIsSavingToPrefs (gPrefs w) (controls this)
                          0%nat) in
    (Returned true,
     mkWorld (theTheme w) (aColor w) (shuttle_prefs S) (trace w)).

(** Populate, then commit the form as it is. *)
Definition populate_then_commit : M bool :=
  this <- Populate ;; Commit this.

End Exchange.

(** *** A concrete theme system

    A small instance of the collaborators on which the handlers can be
    run: the theme system records the operations it performed, the colour
    tables record how many operations the theme had seen when they were
    last initialised, and whether a package opens and parses depends on
    its file name. *)
Module Demo.

Definition open_by_name (path : string) (p : option string)
  : Outcome (option string) :=
  if String.eqb path "missing.zip" then
    Thrown (ArchiveError OperationalError)
  else if String.eqb path "notes.txt" then
    Thrown (ArchiveError InvalidArchive)
  else Returned (Some path).

Definition parse_by_name (p : option string)
  : Outcome (option string) :=
  match p with
  | None => Thrown (std_invalid_argument "no package is open")
  | Some path =>
      if String.eqb path "old.zip" then Thrown IncompatibleTheme
      else if String.eqb path "broken.zip" then
        Thrown (std_invalid_argument "theme.json is missing")
      else if String.eqb path "huge.zip" then Thrown std_bad_alloc
      else Returned p
  end.

Definition performs (name : string) (t : list string)
  : Outcome unit * list string :=
  (Returned tt, t ++ [name]).

#[export] Instance collaborators : Collaborators := {|
  ThemeState := list string;
  teThemeType := string;
  Colors := nat;
  ThemePackage := option string;
  LoadComponents := performs "LoadComponents";
  SaveComponents := performs "SaveComponents";
  ReadImageCache := fun _ => performs "ReadImageCache";
  CreateImageCache := performs "CreateImageCache";
  WriteImageMap := performs "WriteImageMap";
  SaveThemeAsCode := performs "SaveThemeAsCode";
  WriteImageDefs := performs "WriteImageDefs";
  GetFallbackThemeType := fun _ => "light";
  AColor_ReInit := fun t _ => List.length t;
  default_package := None;
  OpenPackage := open_by_name;
  ParsePackage := parse_by_name;
  GUITheme_key := "/GUI/Theme";
  GUIBlendThemes_key := "/GUI/BlendThemes"
|}.

Definition prefs : Prefs :=
  mkPrefs (fun k => if String.eqb k "/GUI/Theme" then "dark" else "")
          (fun _ => false).

(** A running application: a theme is loaded, nothing on the trace. *)
Definition world : World := mkWorld ["ReadImageCache"] 1%nat prefs [].

Definition accepts (path : string) : FileDialogReply :=
  mkReply wxID_OK path.
Definition cancels : FileDialogReply := mkReply wxID_CANCEL "".

End Demo.

(* ================================================================= *)
(** ** Reading runs *)

(** *** Sequences of settings operations *)

(** What an operation assigns to each of the four fields that have an
    inline setter, if it assigns to that field. *)
Definition assigns_tool (op : SettingsOp) : option Z :=
  match op with OpSetTool tool => Some tool | _ => None end.

Definition assigns_speed (op : SettingsOp) : option double :=
  match op with OpSetPlaySpeed value => Some value | _ => None end.

Definition assigns_fit (op : SettingsOp) : option bool :=
  match op with OpSetTracksFitVerticallyZoomed flag => Some flag | _ => None end.

Definition assigns_id3 (op : SettingsOp) : option bool :=
  match op with OpSetShowId3Dialog flag => Some flag | _ => None end.

(** The value assigned by the latest operation of [ops] that [pick]
    selects, or [before] when there is none. *)
Fixpoint last_assigned {A : Type} (pick : SettingsOp -> option A)
    (ops : list SettingsOp) (before : A) : A :=
  match ops with
  | [] => before
  | op :: rest =>
      last_assigned pick rest
        (match pick op with Some a => a | None => before end)
  end.

(** The members that no inline member function assigns. *)
Definition unassigned_members (s : ProjectSettings)
  : NumericFormatSymbol * NumericFormatSymbol * NumericFormatSymbol
    * NumericFormatSymbol * string * Z * bool * bool * bool :=
  (mSelectionFormat s, mFrequencySelectionFormatName s,
   mBandwidthSelectionFormatName s, mAudioTimeFormat s, mSoloPref s,
   mSnapTo s, mIsSyncLocked s, mEmptyCanBeDirty s, mShowSplashScreen s).

(** *** Button presses on the theme panel *)

(** The ids whose handler ends with [ApplyUpdatedImages]. *)
Definition applies_images (id : Z) : bool :=
  (id =? idLoadThemeCache) || (id =? idLoadThemeComponents)
  || (id =? idReadThemeInternal).

Section Presses.
Context {collaborators : Collaborators}.

(** A computation that leaves the trace, the colours and the preference
    store as they are, whatever its outcome. *)
Definition theme_only (m : M unit) : Prop :=
  forall (w w' : World) (o : Outcome unit),
    m w = (o, w') ->
    trace w' = trace w /\ aColor w' = aColor w /\ gPrefs w' = gPrefs w.

(** The buttons with the given ids pressed one after the other; an id
    without an entry in the event table is not handled by the panel. *)
Fixpoint press_buttons (ids : list Z) : M unit :=
  match ids with
  | [] => ret tt
  | id :: rest =>
      match event_table id with
      | Some handler => handler ;; press_buttons rest
      | None => press_buttons rest
      end
  end.

(** Whether a trace has a call of [ParsePackage]. *)
Definition parses_package (t : list Effect) : bool :=
  existsb (fun e => match e with PackageParsed => true | _ => false end) t.

End Presses.

(** *** A theme system that fails

    Collaborators whose disk operations throw: reading and writing theme
    files fails with an exception no handler of the panel catches, and
    so does opening any package. *)
Module Faulty.

Definition fails (t : list string) : Outcome unit * list string :=
  (Thrown (unrelated_exception "disk error"), t ++ ["tried"]).

Definition collaborators : Collaborators := {|
  ThemeState := list string;
  teThemeType := string;
  Colors := nat;
  ThemePackage := option string;
  LoadComponents := fails;
  SaveComponents := fails;
  ReadImageCache := fun _ => fails;
  CreateImageCache := fails;
  WriteImageMap := Demo.performs "WriteImageMap";
  SaveThemeAsCode := fails;
  WriteImageDefs := Demo.performs "WriteImageDefs";
  GetFallbackThemeType := fun _ => "light";
  AColor_ReInit := fun t _ => List.length t;
  default_package := None;
  OpenPackage := fun _ _ => Thrown (unrelated_exception "disk error");
  ParsePackage := fun p => Returned p;
  GUITheme_key := "/GUI/Theme";
  GUIBlendThemes_key := "/GUI/BlendThemes"
|}.

Definition world : @World collaborators :=
  @mkWorld collaborators ["ReadImageCache"] 1%nat Demo.prefs [].

End Faulty.

(* ================================================================= *)
(** * Properties *)

(** ** The settings store *)

Lemma one_point_five_is_three_halves :
  is_double one_point_five = true /\
  SFdiv 53 1024 (binary_normalize 53 1024 3 0 false)
                (binary_normalize 53 1024 2 0 false) = one_point_five.
Proof. split; vm_compute; reflexivity. Qed.

Lemma apply_op_tool (op : SettingsOp) (s : ProjectSettings) :
  GetTool (apply_op op s) =
  match op with OpSetTool tool => tool | _ => GetTool s end.
Proof. destruct op; reflexivity. Qed.

Lemma apply_ops_app (ops1 ops2 : list SettingsOp) (s : ProjectSettings) :
  apply_ops (ops1 ++ ops2) s = apply_ops ops2 (apply_ops ops1 s).
Proof.
  revert s; induction ops1 as [| op ops1 IH]; intros s; simpl.
  - reflexivity.
  - apply IH.
Qed.

(** C6. For every valid tool code [t], [SetTool(t)] followed by
    [GetTool()] on the same object returns [t]. *)
Theorem SetTool_then_GetTool (s : ProjectSettings) (t : Z) :
  ToolCodes.is_tool t = true ->
  GetTool (SetTool t s) = t.
Proof. intros _. reflexivity. Qed.

Lemma SetTool_then_GetTool_witness :
  ToolCodes.is_tool ToolCodes.zoomTool = true /\
  GetTool (SetTool ToolCodes.zoomTool sample_settings) = ToolCodes.zoomTool.
Proof.
  split.
  - reflexivity.
  - apply (SetTool_then_GetTool sample_settings ToolCodes.zoomTool).
    reflexivity.
Defined.

(** C7. On one thread, [SetPlaySpeed(1.5)] followed at once by
    [GetPlaySpeed()] on the same object returns exactly [1.5]. *)
Theorem SetPlaySpeed_then_GetPlaySpeed (s : ProjectSettings) :
  GetPlaySpeed (SetPlaySpeed one_point_five s) = one_point_five.
Proof. reflexivity. Qed.

(** C3, as stated, fails: [SetTool] stores any [int].  From a state whose
    tool is [selectTool], [SetTool(numTools)] leaves the current tool at
    5, which is none of the enumerated tool codes. *)
Lemma SetTool_stores_invalid_code :
  ToolCodes.is_tool (GetTool sample_settings) = true /\
  is_int ToolCodes.numTools = true /\
  GetTool (apply_ops [OpSetTool ToolCodes.numTools] sample_settings) = 5 /\
  ToolCodes.is_tool
    (GetTool (apply_ops [OpSetTool ToolCodes.numTools] sample_settings))
  = false.
Proof. repeat split. Qed.

(** C3, amended. Starting from a state whose current tool is an
    enumerated tool code, after any sequence of the operations of the
    header in which every argument of [SetTool] is an enumerated tool
    code, the current tool is an enumerated tool code. *)
Theorem tool_stays_valid_with_valid_arguments
    (ops : list SettingsOp) (s : ProjectSettings) :
  ToolCodes.is_tool (GetTool s) = true ->
  forallb op_tool_ok ops = true ->
  ToolCodes.is_tool (GetTool (apply_ops ops s)) = true.
Proof.
  revert s; induction ops as [| op ops IH]; intros s Hs Hops; simpl in *.
  - exact Hs.
  - apply andb_true_iff in Hops as [Hop Hrest].
    apply IH; [| exact Hrest].
    rewrite apply_op_tool.
    destruct op; simpl in Hop; assumption.
Qed.

Lemma tool_stays_valid_with_valid_arguments_witness :
  ToolCodes.is_tool
    (GetTool
       (apply_ops [OpSetTool ToolCodes.drawTool; OpSetShowId3Dialog false;
                   OpSetPlaySpeed one_point_five;
                   OpSetTool ToolCodes.multiTool]
                  sample_settings)) = true.
Proof.
  apply (tool_stays_valid_with_valid_arguments
           [OpSetTool ToolCodes.drawTool; OpSetShowId3Dialog false;
            OpSetPlaySpeed one_point_five; OpSetTool ToolCodes.multiTool]
           sample_settings).
  - reflexivity.
  - reflexivity.
Defined.

(** ** The theme panel *)

Lemma message_boxes_app (t1 t2 : list Effect) :
  message_boxes (t1 ++ t2) = message_boxes t1 ++ message_boxes t2.
Proof.
  induction t1 as [| e t1 IH]; simpl.
  - reflexivity.
  - destruct e; simpl; rewrite IH; reflexivity.
Qed.

Lemma events_app (t1 t2 : list Effect) :
  events (t1 ++ t2) = events t1 ++ events t2.
Proof.
  induction t1 as [| e t1 IH]; simpl.
  - reflexivity.
  - destruct e; simpl; rewrite IH; reflexivity.
Qed.

Lemma theme_changes_app (t1 t2 : list Effect) :
  theme_changes (t1 ++ t2) = (theme_changes t1 + theme_changes t2)%nat.
Proof.
  unfold theme_changes.
  rewrite events_app, filter_app, length_app. reflexivity.
Qed.

Lemma named_message_injective (c1 c2 : FailureClass) :
  named_message c1 = named_message c2 -> c1 = c2.
Proof. destruct c1, c2; simpl; intros H; try reflexivity; discriminate H. Qed.

Section HandlerProperties.
Context {collaborators : Collaborators}.

Lemma extend_extend (w : World) (t1 t2 : list Effect) :
  extend (extend w t1) t2 = extend w (t1 ++ t2).
Proof. unfold extend; simpl. rewrite <- app_assoc. reflexivity. Qed.

Lemma log_extend (e : Effect) (w : World) :
  log e w = (Returned tt, extend w [e]).
Proof. reflexivity. Qed.

(** A run in which the dialog is cancelled. *)
Lemma OnLoadThemePackage_cancelled (user : FileDialogReply) (w : World) :
  modal_result user = wxID_CANCEL ->
  OnLoadThemePackage user w
  = (Returned tt, extend w [FileDialogShown "Load Theme"]).
Proof.
  intros Hcancel.
  unfold OnLoadThemePackage, ShowModal, bind, ret; simpl.
  rewrite Hcancel. reflexivity.
Qed.

(** A run in which the package fails to open or to parse: the clause
    for the exception, if there is one, runs after the calls made. *)
Lemma OnLoadThemePackage_failed
    (user : FileDialogReply) (w : World) (e : exn) :
  modal_result user <> wxID_CANCEL ->
  package_fails (GetPath user) e ->
  exists calls,
    (calls = [PackageOpened (GetPath user)] \/
     calls = [PackageOpened (GetPath user); PackageParsed]) /\
    OnLoadThemePackage user w
    = match OnLoadThemePackage_clauses e with
      | Some handler =>
          handler (extend w (FileDialogShown "Load Theme" :: calls))
      | None =>
          (Thrown e, extend w (FileDialogShown "Load Theme" :: calls))
      end.
Proof.
  intros Hgo Hfail.
  apply Z.eqb_neq in Hgo.
  unfold OnLoadThemePackage, ShowModal, bind, ret; simpl.
  rewrite Hgo.
  unfold try_catch, bind, on_package; simpl.
  destruct Hfail as [Hopen | (opened & Hopen & Hparse)].
  - exists [PackageOpened (GetPath user)]. split; [left; reflexivity |].
    rewrite Hopen.
    unfold extend; simpl. rewrite <- app_assoc; simpl.
    reflexivity.
  - exists [PackageOpened (GetPath user); PackageParsed].
    split; [right; reflexivity |].
    rewrite Hopen, Hparse.
    unfold extend; simpl. rewrite <- !app_assoc; simpl.
    reflexivity.
Qed.

(** The clause of a classified exception shows one message box, whose
    caption is the message named for the class, and returns. *)
Lemma clause_shows_named_message (e : exn) (c : FailureClass) :
  failure_class e = Some c ->
  exists message,
    OnLoadThemePackage_clauses e
    = Some (AudacityMessageBox message (named_message c) wxOK) /\
    (e = IncompatibleTheme ->
     message = "Theme package incompatible with this version of Tenacity").
Proof.
  destruct e as [what | | | [|] | what]; simpl; intros H;
    try discriminate H; injection H as <-; simpl;
    eexists; (split; [reflexivity | intros E; try discriminate E]).
  reflexivity.
Qed.

(** A run in which the package opens and parses. *)
Lemma OnLoadThemePackage_succeeded (user : FileDialogReply) (w : World) :
  modal_result user <> wxID_CANCEL ->
  package_ok (GetPath user) ->
  OnLoadThemePackage user w
  = (Returned tt,
     extend w [FileDialogShown "Load Theme";
               PackageOpened (GetPath user); PackageParsed;
               MessageBoxShown "Package OK!" "Success!" wxOK]).
Proof.
  intros Hgo (opened & parsed & Hopen & Hparse).
  apply Z.eqb_neq in Hgo.
  unfold OnLoadThemePackage, ShowModal, bind, ret; simpl.
  rewrite Hgo.
  unfold try_catch, bind, on_package; simpl.
  rewrite Hopen, Hparse.
  unfold AudacityMessageBox, log, extend; simpl.
  rewrite <- !app_assoc; simpl. reflexivity.
Qed.

End HandlerProperties.

Section LoadThemePackage.
Context {collaborators : Collaborators}.

(** C1. In a run of the Load Theme Package handler in which opening
    or parsing the package raises an exception of a failure class, the
    handler shows one message box and its caption is the message named
    for that class: [Invalid theme] for malformed input, [Memory error]
    for out of memory, [Incompatible theme] for a version-incompatible
    theme, [Invalid archive] and [Operational error] for the two
    sub-kinds of archive error; no other class has the same message. *)
Theorem failure_class_has_its_own_message
    (user : FileDialogReply) (w : World) (e : exn) (c : FailureClass) :
  modal_result user <> wxID_CANCEL ->
  package_fails (GetPath user) e ->
  failure_class e = Some c ->
  exists message w',
    OnLoadThemePackage user w = (Returned tt, w') /\
    message_boxes (trace w')
    = message_boxes (trace w) ++ [(message, named_message c)] /\
    forall c', named_message c' = named_message c -> c' = c.
Proof.
  intros Hgo Hfail Hclass.
  destruct (OnLoadThemePackage_failed user w e Hgo Hfail)
    as (calls & Hcalls & Hrun).
  destruct (clause_shows_named_message e c Hclass) as (message & Hcl & _).
  rewrite Hcl in Hrun.
  exists message. eexists. split; [exact Hrun |].
  split.
  - unfold AudacityMessageBox, log, extend; simpl.
    rewrite !message_boxes_app; simpl.
    destruct Hcalls as [-> | ->]; simpl; rewrite app_nil_r; reflexivity.
  - intros c'. apply named_message_injective.
Qed.

(** C4. In a run of the Load Theme Package handler in which opening
    or parsing fails with a handled failure class, the handler returns
    after showing the message box of that class, as the last thing it
    does; the theme, the colours and the preferences are as before and
    no event is raised.  For a version mismatch the box is the
    [Incompatible theme] one. *)
Theorem failed_load_changes_nothing
    (user : FileDialogReply) (w : World) (e : exn) (c : FailureClass) :
  modal_result user <> wxID_CANCEL ->
  package_fails (GetPath user) e ->
  failure_class e = Some c ->
  exists w' calls message,
    OnLoadThemePackage user w = (Returned tt, w') /\
    trace w'
    = trace w ++ calls ++ [MessageBoxShown message (named_message c) wxOK]
    /\ message_boxes calls = [] /\ events calls = [] /\
    program_state w' = program_state w /\
    (e = IncompatibleTheme ->
     message = "Theme package incompatible with this version of Tenacity"
     /\ named_message c = "Incompatible theme").
Proof.
  intros Hgo Hfail Hclass.
  destruct (OnLoadThemePackage_failed user w e Hgo Hfail)
    as (calls & Hcalls & Hrun).
  destruct (clause_shows_named_message e c Hclass)
    as (message & Hcl & Hmsg).
  rewrite Hcl in Hrun.
  eexists. exists (FileDialogShown "Load Theme" :: calls), message.
  split; [exact Hrun |].
  unfold AudacityMessageBox, log, extend; simpl.
  split; [rewrite <- app_assoc; reflexivity |].
  split; [destruct Hcalls as [-> | ->]; reflexivity |].
  split; [destruct Hcalls as [-> | ->]; reflexivity |].
  split; [reflexivity |].
  intros ->. split; [apply Hmsg; reflexivity |].
  simpl in Hclass. injection Hclass as <-. reflexivity.
Qed.

(** C5. In a run of the Load Theme Package handler in which opening
    and parsing succeed, the handler reports success in a message box
    and does nothing else: the theme, the colours and the preferences
    are as before and no theme-changed notification, nor any other
    event, is raised. *)
Theorem successful_load_only_validates
    (user : FileDialogReply) (w : World) :
  modal_result user <> wxID_CANCEL ->
  package_ok (GetPath user) ->
  exists w',
    OnLoadThemePackage user w = (Returned tt, w') /\
    program_state w' = program_state w /\
    events (trace w') = events (trace w) /\
    theme_changes (trace w') = theme_changes (trace w) /\
    message_boxes (trace w')
    = message_boxes (trace w) ++ [("Package OK!", "Success!")].
Proof.
  intros Hgo Hok.
  eexists. split; [apply OnLoadThemePackage_succeeded; assumption |].
  unfold extend; simpl.
  split; [reflexivity |].
  split; [rewrite events_app; simpl; apply app_nil_r |].
  split; [rewrite theme_changes_app; simpl; apply Nat.add_0_r |].
  rewrite message_boxes_app; reflexivity.
Qed.

(** C10. In a run of the Load Theme Package handler in which the user
    cancels the file dialog, the handler returns at once: showing the
    dialog is all it did, so no package is opened or parsed and no
    message box is shown, and the theme, the colours and the
    preferences are as before. *)
Theorem cancelled_load_does_nothing
    (user : FileDialogReply) (w : World) :
  modal_result user = wxID_CANCEL ->
  exists w' done,
    OnLoadThemePackage user w = (Returned tt, w') /\
    trace w' = trace w ++ done /\
    done = [FileDialogShown "Load Theme"] /\
    touches_package done = false /\
    message_boxes done = [] /\
    events done = [] /\
    program_state w' = program_state w.
Proof.
  intros Hcancel.
  eexists. exists [FileDialogShown "Load Theme"].
  split; [apply OnLoadThemePackage_cancelled; assumption |].
  repeat split.
Qed.

End LoadThemePackage.

Lemma failure_class_has_its_own_message_witness :
  exists message w',
    OnLoadThemePackage (Demo.accepts "notes.txt") Demo.world
    = (Returned tt, w') /\
    message_boxes (trace w')
    = message_boxes (trace Demo.world) ++ [(message, "Invalid archive")] /\
    forall c',
      named_message c' = named_message ArchiveInvalidStructure ->
      c' = ArchiveInvalidStructure.
Proof.
  apply (failure_class_has_its_own_message
           (Demo.accepts "notes.txt") Demo.world
           (ArchiveError InvalidArchive) ArchiveInvalidStructure).
  - discriminate.
  - left. reflexivity.
  - reflexivity.
Defined.

Lemma failed_load_changes_nothing_witness :
  exists w' calls message,
    OnLoadThemePackage (Demo.accepts "old.zip") Demo.world
    = (Returned tt, w') /\
    trace w'
    = trace Demo.world ++ calls
      ++ [MessageBoxShown message (named_message VersionIncompatible) wxOK]
    /\ message_boxes calls = [] /\ events calls = [] /\
    program_state w' = program_state Demo.world /\
    (IncompatibleTheme = IncompatibleTheme ->
     message = "Theme package incompatible with this version of Tenacity"
     /\ named_message VersionIncompatible = "Incompatible theme").
Proof.
  apply (failed_load_changes_nothing
           (Demo.accepts "old.zip") Demo.world
           IncompatibleTheme VersionIncompatible).
  - discriminate.
  - right. exists (Some "old.zip"). split; reflexivity.
  - reflexivity.
Defined.

Lemma successful_load_only_validates_witness :
  exists w',
    OnLoadThemePackage (Demo.accepts "sunset.zip") Demo.world
    = (Returned tt, w') /\
    program_state w' = program_state Demo.world /\
    events (trace w') = events (trace Demo.world) /\
    theme_changes (trace w') = theme_changes (trace Demo.world) /\
    message_boxes (trace w')
    = message_boxes (trace Demo.world) ++ [("Package OK!", "Success!")].
Proof.
  apply (successful_load_only_validates
           (Demo.accepts "sunset.zip") Demo.world).
  - discriminate.
  - exists (Some "sunset.zip"), (Some "sunset.zip"). split; reflexivity.
Defined.

Lemma cancelled_load_does_nothing_witness :
  exists w' done,
    OnLoadThemePackage Demo.cancels Demo.world = (Returned tt, w') /\
    trace w' = trace Demo.world ++ done /\
    done = [FileDialogShown "Load Theme"] /\
    touches_package done = false /\
    message_boxes done = [] /\
    events done = [] /\
    program_state w' = program_state Demo.world.
Proof.
  apply (cancelled_load_does_nothing Demo.cancels Demo.world).
  reflexivity.
Defined.

Section ThemeFiles.
Context {collaborators : Collaborators}.

Lemma ApplyUpdatedImages_run (w : World) :
  ApplyUpdatedImages w
  = (Returned tt,
     mkWorld (theTheme w) (AColor_ReInit (theTheme w) (aColor w))
             (gPrefs w) (trace w ++ [EventProcessed EVT_THEME_CHANGE])).
Proof. reflexivity. Qed.

Lemma on_theTheme_trace
    (f : ThemeState -> Outcome unit * ThemeState)
    (w w' : World) (o : Outcome unit) :
  on_theTheme f w = (o, w') -> trace w' = trace w.
Proof.
  unfold on_theTheme. destruct (f (theTheme w)) as [o1 t].
  intros H; injection H as _ <-. reflexivity.
Qed.

(** A load handler that returns has run [ApplyUpdatedImages] last. *)
Lemma load_then_apply
    (f : ThemeState -> Outcome unit * ThemeState) (w w' : World) :
  (on_theTheme f ;; ApplyUpdatedImages) w = (Returned tt, w') ->
  trace w' = trace w ++ [EventProcessed EVT_THEME_CHANGE].
Proof.
  unfold bind.
  destruct (on_theTheme f w) as [[[] | e] w1] eqn:Hcall;
    [| discriminate].
  rewrite ApplyUpdatedImages_run.
  intros H; injection H as <-; simpl.
  rewrite (on_theTheme_trace _ _ _ _ Hcall). reflexivity.
Qed.

(** C2, amended. A run of the image-cache load handler or of the
    theme-components load handler that returns raises one theme-changed
    notification; a run of the image-cache save handler or of the
    theme-components save handler that returns raises none. *)
Theorem notification_raised_by_load_handlers_only
    (h : ThemeFileHandler) (w w' : World) :
  handler_of h w = (Returned tt, w') ->
  theme_changes (trace w')
  = (theme_changes (trace w) + (if is_load h then 1 else 0))%nat.
Proof.
  destruct h; simpl; intros Hrun.
  - apply load_then_apply in Hrun. rewrite Hrun, theme_changes_app.
    reflexivity.
  - unfold OnSaveThemeCache, bind in Hrun.
    destruct (on_theTheme CreateImageCache w) as [[[] | e] w1] eqn:Hcall;
      [| discriminate].
    apply on_theTheme_trace in Hrun, Hcall.
    rewrite Hrun, Hcall. apply eq_sym, Nat.add_0_r.
  - apply load_then_apply in Hrun. rewrite Hrun, theme_changes_app.
    reflexivity.
  - apply on_theTheme_trace in Hrun.
    rewrite Hrun. apply eq_sym, Nat.add_0_r.
Qed.

End ThemeFiles.

Lemma notification_raised_by_load_handlers_only_witness :
  exists w',
    handler_of LoadImageCache Demo.world = (Returned tt, w') /\
    theme_changes (trace w') = 1%nat.
Proof.
  eexists. split; [reflexivity |].
  apply (notification_raised_by_load_handlers_only
           LoadImageCache Demo.world).
  reflexivity.
Defined.

(** C2, as stated, fails for the save direction: the image-cache save
    handler and the theme-components save handler return without raising
    a theme-changed notification, or any event. *)
Lemma save_handlers_raise_no_notification :
  fst (handler_of SaveImageCache Demo.world) = Returned tt /\
  events (trace (snd (handler_of SaveImageCache Demo.world))) = [] /\
  theme_changes (trace (snd (handler_of SaveImageCache Demo.world))) = 0%nat
  /\
  fst (handler_of SaveThemeComponents Demo.world) = Returned tt /\
  events (trace (snd (handler_of SaveThemeComponents Demo.world))) = [] /\
  theme_changes (trace (snd (handler_of SaveThemeComponents Demo.world)))
  = 0%nat.
Proof. repeat split. Qed.

(** ** The exchange routine *)

Lemma write_string_same (key : string) (p : Prefs) (k : string) :
  pref_string (write_string key (pref_string p key) p) k = pref_string p k.
Proof.
  simpl. destruct (String.eqb_spec k key) as [-> | _]; reflexivity.
Qed.

Lemma write_bool_same (key : string) (p : Prefs) (k : string) :
  pref_bool (write_bool key (pref_bool p key) p) k = pref_bool p k.
Proof.
  simpl. destruct (String.eqb_spec k key) as [-> | _]; reflexivity.
Qed.

Section ExchangeProperties.
Context {collaborators : Collaborators}.

(** The store after populating and committing at once: each bound key
    was written with the value read from it. *)
Lemma populate_then_commit_run (w : World) :
  populate_then_commit w
  = (Returned true,
     mkWorld (theTheme w) (aColor w)
       (write_bool GUIBlendThemes_key
          (pref_bool (gPrefs w) GUIBlendThemes_key)
          (write_string GUITheme_key
             (pref_string (gPrefs w) GUITheme_key) (gPrefs w)))
       (trace w)).
Proof. reflexivity. Qed.

(** C8. Populating the theme panel (the exchange routine in the load
    direction) and committing it at once, the form not having been
    touched (the same routine in the save direction), leaves every
    stored preference value as it was. *)
Theorem populate_then_commit_keeps_preferences (w : World) :
  exists w',
    populate_then_commit w = (Returned true, w') /\
    (forall key, pref_string (gPrefs w') key = pref_string (gPrefs w) key)
    /\
    (forall key, pref_bool (gPrefs w') key = pref_bool (gPrefs w) key).
Proof.
  eexists. split; [apply populate_then_commit_run |].
  split; intros key.
  - cbn [gPrefs]. cbn [write_bool pref_string].
    apply write_string_same.
  - cbn [gPrefs].
    change (pref_bool (gPrefs w) GUIBlendThemes_key)
      with (pref_bool
              (write_string GUITheme_key
                 (pref_string (gPrefs w) GUITheme_key) (gPrefs w))
              GUIBlendThemes_key).
    rewrite write_bool_same. reflexivity.
Qed.

End ExchangeProperties.


(* ================================================================= *)
(** * Further properties of the settings store *)

Lemma apply_op_unassigned (op : SettingsOp) (s : ProjectSettings) :
  unassigned_members (apply_op op s) = unassigned_members s.
Proof. destruct op; reflexivity. Qed.

(** X1. After any sequence of the inline setters, each getter returns
    the argument of the latest call of its own setter, or the value the
    field had before when the sequence has no such call: the setters of
    the other fields never disturb it. *)
Theorem getters_return_last_assignment
    (ops : list SettingsOp) (s : ProjectSettings) :
  GetTool (apply_ops ops s) = last_assigned assigns_tool ops (GetTool s) /\
  GetPlaySpeed (apply_ops ops s)
  = last_assigned assigns_speed ops (GetPlaySpeed s) /\
  GetTracksFitVerticallyZoomed (apply_ops ops s)
  = last_assigned assigns_fit ops (GetTracksFitVerticallyZoomed s) /\
  GetShowId3Dialog (apply_ops ops s)
  = last_assigned assigns_id3 ops (GetShowId3Dialog s).
Proof.
  revert s; induction ops as [| op ops IH]; intros s.
  - repeat split.
  - destruct (IH (apply_op op s)) as (Htool & Hspeed & Hfit & Hid3).
    simpl. rewrite Htool, Hspeed, Hfit, Hid3.
    destruct op; repeat split.
Qed.

(** X2. No sequence of the inline setters changes a member that has no
    inline setter: the four format symbols, the solo preference, the snap
    mode, the sync-lock flag and the two start-up flags stay as they
    were, and so do the answers of [IsSoloSimple], [IsSoloNone],
    [EmptyCanBeDirty] and [GetShowSplashScreen]. *)
Theorem setters_keep_other_members
    (ops : list SettingsOp) (s : ProjectSettings) :
  unassigned_members (apply_ops ops s) = unassigned_members s /\
  IsSoloSimple (apply_ops ops s) = IsSoloSimple s /\
  IsSoloNone (apply_ops ops s) = IsSoloNone s /\
  EmptyCanBeDirty (apply_ops ops s) = EmptyCanBeDirty s /\
  GetShowSplashScreen (apply_ops ops s) = GetShowSplashScreen s.
Proof.
  assert (H : unassigned_members (apply_ops ops s) = unassigned_members s).
  { revert s; induction ops as [| op ops IH]; intros s; simpl.
    - reflexivity.
    - rewrite IH. apply apply_op_unassigned. }
  split; [exact H |].
  unfold unassigned_members in H.
  unfold IsSoloSimple, IsSoloNone, EmptyCanBeDirty, GetShowSplashScreen.
  injection H as _ _ _ _ Hsolo _ _ Hempty Hsplash.
  rewrite Hsolo, Hempty, Hsplash. repeat split.
Qed.

(** X3. The two solo queries never both answer yes: a settings object is
    in simple solo mode, in no-solo mode, or in neither. *)
Theorem solo_modes_exclusive (s : ProjectSettings) :
  IsSoloSimple s && IsSoloNone s = false.
Proof.
  unfold IsSoloSimple, IsSoloNone.
  destruct (String.eqb_spec (mSoloPref s) "Simple") as [-> | _];
    reflexivity.
Qed.

(* ================================================================= *)
(** * Further properties of the theme panel *)

Lemma append_empty (s : string) : (s ++ "")%string = s.
Proof.
  induction s as [| c s IH]; simpl.
  - reflexivity.
  - rewrite IH. reflexivity.
Qed.

Section LoadThemePackageRuns.
Context {collaborators : Collaborators}.

Lemma clause_is_one_message_box (e : exn) (handler : M unit) :
  OnLoadThemePackage_clauses e = Some handler ->
  exists message caption,
    handler = AudacityMessageBox message caption wxOK.
Proof.
  destruct e as [what | | | [|] | what]; simpl; intros H;
    try discriminate H; injection H as <-; eexists; eexists; reflexivity.
Qed.

Lemma unclassified_has_no_clause (e : exn) :
  failure_class e = None -> OnLoadThemePackage_clauses e = None.
Proof. destruct e as [what | | | [|] | what]; simpl; congruence. Qed.

(** What a failed run leaves, whether the exception has a clause or not. *)
Lemma failed_run_shape (user : FileDialogReply) (w : World) (e : exn) :
  modal_result user <> wxID_CANCEL ->
  package_fails (GetPath user) e ->
  exists o done,
    OnLoadThemePackage user w
    = (o, extend w (FileDialogShown "Load Theme" :: done)) /\
    events done = [] /\ (List.length (message_boxes done) <= 1)%nat.
Proof.
  intros Hgo Hfail.
  destruct (OnLoadThemePackage_failed user w e Hgo Hfail)
    as (calls & Hcalls & Hrun).
  rewrite Hrun.
  destruct (OnLoadThemePackage_clauses e) as [handler |] eqn:Hclause.
  - destruct (clause_is_one_message_box e handler Hclause)
      as (message & caption & ->).
    exists (Returned tt), (calls ++ [MessageBoxShown message caption wxOK]).
    split.
    + unfold AudacityMessageBox, log, extend; simpl.
      rewrite <- app_assoc. reflexivity.
    + rewrite events_app, message_boxes_app, length_app.
      destruct Hcalls as [-> | ->]; simpl; split; (reflexivity || lia).
  - exists (Thrown e), calls. split; [reflexivity |].
    destruct Hcalls as [-> | ->]; simpl; split; (reflexivity || lia).
Qed.

(** X4. Whatever the user answers and whatever the package library
    does, a run of the Load Theme Package handler starts by showing the
    file dialog, shows at most one message box, raises no event and
    leaves the theme, the colours and the preference store as they
    were. *)
Theorem load_package_never_changes_state
    (user : FileDialogReply) (w : World) :
  exists o w' done,
    OnLoadThemePackage user w = (o, w') /\
    trace w' = trace w ++ FileDialogShown "Load Theme" :: done /\
    events done = [] /\
    (List.length (message_boxes done) <= 1)%nat /\
    program_state w' = program_state w.
Proof.
  destruct (Z.eq_dec (modal_result user) wxID_CANCEL) as [Hcancel | Hgo].
  - exists (Returned tt). eexists. exists [].
    split; [apply OnLoadThemePackage_cancelled; assumption |].
    repeat split. simpl. lia.
  - assert (Hfailed : forall e, package_fails (GetPath user) e ->
              exists o w' done,
                OnLoadThemePackage user w = (o, w') /\
                trace w' = trace w ++ FileDialogShown "Load Theme" :: done /\
                events done = [] /\
                (List.length (message_boxes done) <= 1)%nat /\
                program_state w' = program_state w).
    { intros e Hfail.
      destruct (failed_run_shape user w e Hgo Hfail)
        as (o & done & Hrun & Hev & Hbox).
      exists o. eexists. exists done.
      split; [exact Hrun |]. repeat split; assumption. }
    destruct (OpenPackage (GetPath user) default_package)
      as [opened | e] eqn:Hopen.
    + destruct (ParsePackage opened) as [parsed | e] eqn:Hparse.
      * exists (Returned tt). eexists.
        exists [PackageOpened (GetPath user); PackageParsed;
                MessageBoxShown "Package OK!" "Success!" wxOK].
        split.
        { apply OnLoadThemePackage_succeeded; [assumption |].
          exists opened, parsed. split; assumption. }
        repeat split. simpl. lia.
      * apply (Hfailed e). right. exists opened. split; assumption.
    + apply (Hfailed e). left. assumption.
Qed.

(** X5. An exception from opening or parsing that has no [catch] clause
    escapes the handler: the run ends with that exception, no message
    box is shown, and the theme, the colours and the preference store
    are as they were. *)
Theorem uncaught_exception_escapes
    (user : FileDialogReply) (w : World) (e : exn) :
  modal_result user <> wxID_CANCEL ->
  package_fails (GetPath user) e ->
  failure_class e = None ->
  exists w',
    OnLoadThemePackage user w = (Thrown e, w') /\
    message_boxes (trace w') = message_boxes (trace w) /\
    events (trace w') = events (trace w) /\
    program_state w' = program_state w.
Proof.
  intros Hgo Hfail Hclass.
  destruct (OnLoadThemePackage_failed user w e Hgo Hfail)
    as (calls & Hcalls & Hrun).
  rewrite (unclassified_has_no_clause e Hclass) in Hrun.
  eexists. split; [exact Hrun |].
  unfold extend; simpl.
  rewrite message_boxes_app, events_app.
  destruct Hcalls as [-> | ->]; simpl; rewrite !app_nil_r; repeat split.
Qed.

(** X6. When opening the package throws, the handler does not go on to
    parse it: the run has no call of [ParsePackage]. *)
Theorem open_failure_skips_parse
    (user : FileDialogReply) (w : World) (e : exn) :
  modal_result user <> wxID_CANCEL ->
  OpenPackage (GetPath user) default_package = Thrown e ->
  exists o w' done,
    OnLoadThemePackage user w = (o, w') /\
    trace w' = trace w ++ done /\
    parses_package done = false.
Proof.
  intros Hgo Hopen.
  apply Z.eqb_neq in Hgo.
  unfold OnLoadThemePackage, ShowModal, bind, ret; simpl.
  rewrite Hgo.
  unfold try_catch, bind, on_package; simpl.
  rewrite Hopen.
  destruct (OnLoadThemePackage_clauses e) as [handler |] eqn:Hclause.
  - destruct (clause_is_one_message_box e handler Hclause)
      as (message & caption & ->).
    eexists. eexists.
    exists [FileDialogShown "Load Theme"; PackageOpened (GetPath user);
            MessageBoxShown message caption wxOK].
    split; [reflexivity |].
    simpl. rewrite <- !app_assoc. split; reflexivity.
  - eexists. eexists.
    exists [FileDialogShown "Load Theme"; PackageOpened (GetPath user)].
    split; [reflexivity |].
    simpl. rewrite <- !app_assoc. split; reflexivity.
Qed.

(** X7. When opening or parsing throws [std::invalid_argument], the
    text of the [Invalid theme] box is [Error: ] followed by the
    exception's [what()], unaltered. *)
Theorem invalid_argument_box_carries_reason
    (user : FileDialogReply) (w : World) (what : string) :
  modal_result user <> wxID_CANCEL ->
  package_fails (GetPath user) (std_invalid_argument what) ->
  exists w',
    OnLoadThemePackage user w = (Returned tt, w') /\
    message_boxes (trace w')
    = message_boxes (trace w)
      ++ [(("Error: " ++ what)%string, "Invalid theme")].
Proof.
  intros Hgo Hfail.
  destruct (OnLoadThemePackage_failed user w _ Hgo Hfail)
    as (calls & Hcalls & Hrun).
  simpl in Hrun. rewrite append_empty in Hrun.
  eexists. split; [exact Hrun |].
  unfold extend; simpl.
  rewrite !message_boxes_app.
  destruct Hcalls as [-> | ->]; simpl; rewrite app_nil_r; reflexivity.
Qed.

End LoadThemePackageRuns.

Lemma uncaught_exception_escapes_witness :
  exists w',
    @OnLoadThemePackage Faulty.collaborators (Demo.accepts "sunset.zip")
      Faulty.world
    = (Thrown (unrelated_exception "disk error"), w') /\
    message_boxes (trace w') = message_boxes (trace Faulty.world) /\
    events (trace w') = events (trace Faulty.world) /\
    program_state w' = program_state Faulty.world.
Proof.
  apply (@uncaught_exception_escapes Faulty.collaborators
           (Demo.accepts "sunset.zip") Faulty.world
           (unrelated_exception "disk error")).
  - discriminate.
  - left. reflexivity.
  - reflexivity.
Defined.

Lemma open_failure_skips_parse_witness :
  exists o w' done,
    OnLoadThemePackage (Demo.accepts "missing.zip") Demo.world = (o, w') /\
    trace w' = trace Demo.world ++ done /\
    parses_package done = false.
Proof.
  apply (open_failure_skips_parse
           (Demo.accepts "missing.zip") Demo.world
           (ArchiveError OperationalError)).
  - discriminate.
  - reflexivity.
Defined.

Lemma invalid_argument_box_carries_reason_witness :
  exists w',
    OnLoadThemePackage (Demo.accepts "broken.zip") Demo.world
    = (Returned tt, w') /\
    message_boxes (trace w')
    = message_boxes (trace Demo.world)
      ++ [(("Error: " ++ "theme.json is missing")%string, "Invalid theme")].
Proof.
  apply (invalid_argument_box_carries_reason
           (Demo.accepts "broken.zip") Demo.world "theme.json is missing").
  - discriminate.
  - right. exists (Some "broken.zip"). split; reflexivity.
Defined.

Section ButtonPresses.
Context {collaborators : Collaborators}.

Lemma on_theTheme_theme_only
    (f : ThemeState -> Outcome unit * ThemeState) :
  theme_only (on_theTheme f).
Proof.
  intros w w' o. unfold on_theTheme.
  destruct (f (theTheme w)) as [o1 t].
  intros H; injection H as _ <-. repeat split.
Qed.

Lemma theme_only_then (m k : M unit) :
  theme_only m -> theme_only k -> theme_only (m ;; k).
Proof.
  intros Hm Hk w w' o. unfold bind.
  destruct (m w) as [[[] | e] w1] eqn:Hrun.
  - intros Hrest.
    destruct (Hm _ _ _ Hrun) as (Ht & Hc & Hp).
    destruct (Hk _ _ _ Hrest) as (Ht' & Hc' & Hp').
    rewrite Ht', Hc', Hp'. repeat split; assumption.
  - intros H; injection H as <- <-. exact (Hm _ _ _ Hrun).
Qed.

Lemma read_fallback_theme_only :
  theme_only
    (fun w =>
       on_theTheme
         (ReadImageCache (Some (GetFallbackThemeType (theTheme w)))) w).
Proof.
  intros w w' o H. exact (on_theTheme_theme_only _ _ _ _ H).
Qed.

(** A handler that updates the theme and then applies the images. *)
Lemma then_ApplyUpdatedImages
    (m : M unit) (w w' : World) (o : Outcome unit) :
  theme_only m ->
  (m ;; ApplyUpdatedImages) w = (o, w') ->
  match o with
  | Returned _ =>
      trace w' = trace w ++ [EventProcessed EVT_THEME_CHANGE] /\
      aColor w' = AColor_ReInit (theTheme w') (aColor w) /\
      gPrefs w' = gPrefs w
  | Thrown _ =>
      trace w' = trace w /\ aColor w' = aColor w /\ gPrefs w' = gPrefs w
  end.
Proof.
  intros Hm. unfold bind.
  destruct (m w) as [[[] | e] w1] eqn:Hrun;
    destruct (Hm _ _ _ Hrun) as (Ht & Hc & Hp).
  - rewrite ApplyUpdatedImages_run.
    intros H; injection H as <- <-; simpl.
    rewrite Ht, Hc, Hp. repeat split.
  - intros H; injection H as <- <-. repeat split; assumption.
Qed.

(** The handlers of the event table: a theme operation, followed by
    [ApplyUpdatedImages] for the three loading ids. *)
Lemma event_table_handlers (id : Z) (handler : M unit) :
  event_table id = Some handler ->
  exists m,
    theme_only m /\
    handler = if applies_images id then m ;; ApplyUpdatedImages else m.
Proof.
  unfold event_table.
  destruct (Z.eqb_spec id idLoadThemeCache) as [-> | _].
  { intros H; injection H as <-.
    exists (on_theTheme (ReadImageCache None)).
    split; [apply on_theTheme_theme_only | reflexivity]. }
  destruct (Z.eqb_spec id idSaveThemeCache) as [-> | _].
  { intros H; injection H as <-.
    exists OnSaveThemeCache.
    split; [| reflexivity].
    apply theme_only_then; apply on_theTheme_theme_only. }
  destruct (Z.eqb_spec id idLoadThemeComponents) as [-> | _].
  { intros H; injection H as <-.
    exists (on_theTheme LoadComponents).
    split; [apply on_theTheme_theme_only | reflexivity]. }
  destruct (Z.eqb_spec id idSaveThemeComponents) as [-> | _].
  { intros H; injection H as <-.
    exists OnSaveThemeComponents.
    split; [apply on_theTheme_theme_only | reflexivity]. }
  destruct (Z.eqb_spec id idReadThemeInternal) as [-> | _].
  { intros H; injection H as <-.
    eexists. split; [apply read_fallback_theme_only | reflexivity]. }
  destruct (Z.eqb_spec id idSaveThemeAsCode) as [-> | _].
  { intros H; injection H as <-.
    exists OnSaveThemeAsCode.
    split; [| reflexivity].
    apply theme_only_then; apply on_theTheme_theme_only. }
  discriminate.
Qed.

Lemma unwired_applies_nothing (id : Z) :
  event_table id = None -> applies_images id = false.
Proof.
  unfold event_table, applies_images.
  destruct (id =? idLoadThemeCache); [discriminate |].
  destruct (id =? idSaveThemeCache); [discriminate |].
  destruct (id =? idLoadThemeComponents); [discriminate |].
  destruct (id =? idSaveThemeComponents); [discriminate |].
  destruct (id =? idReadThemeInternal); [discriminate |].
  reflexivity.
Qed.

(** What a handler of the event table has done when it returns. *)
Lemma wired_handler_returns
    (id : Z) (handler : M unit) (w w' : World) :
  event_table id = Some handler ->
  handler w = (Returned tt, w') ->
  trace w'
  = trace w
    ++ (if applies_images id then [EventProcessed EVT_THEME_CHANGE] else [])
  /\ aColor w'
     = (if applies_images id then AColor_ReInit (theTheme w') (aColor w)
        else aColor w)
  /\ gPrefs w' = gPrefs w.
Proof.
  intros Htable Hrun.
  destruct (event_table_handlers id handler Htable) as (m & Hm & ->).
  destruct (applies_images id).
  - exact (then_ApplyUpdatedImages m w w' (Returned tt) Hm Hrun).
  - destruct (Hm _ _ _ Hrun) as (-> & -> & ->).
    rewrite app_nil_r. repeat split.
Qed.


(** X9. A handler of the event table that ends with an exception has
    raised no event, has not re-initialised the colours and has left the
    preference store alone: listeners are notified only of a load that
    went through. *)
Theorem failed_button_press_notifies_nobody
    (id : Z) (handler : M unit) (w w' : World) (e : exn) :
  event_table id = Some handler ->
  handler w = (Thrown e, w') ->
  trace w' = trace w /\ aColor w' = aColor w /\ gPrefs w' = gPrefs w.
Proof.
  intros Htable Hrun.
  destruct (event_table_handlers id handler Htable) as (m & Hm & ->).
  destruct (applies_images id).
  - exact (then_ApplyUpdatedImages m w w' (Thrown e) Hm Hrun).
  - exact (Hm _ _ _ Hrun).
Qed.

(** X10. After any sequence of button presses that all return, the
    number of theme-changed events the handlers have raised is the
    number of presses of a loading button (load cache, load files,
    defaults) in the sequence. *)
Theorem presses_count_notifications (ids : list Z) (w w' : World) :
  press_buttons ids w = (Returned tt, w') ->
  theme_changes (trace w')
  = (theme_changes (trace w)
     + List.length (filter applies_images ids))%nat.
Proof.
  revert w; induction ids as [| id rest IH]; intros w; simpl.
  - unfold ret. intros H; injection H as <-.
    rewrite Nat.add_0_r. reflexivity.
  - destruct (event_table id) as [handler |] eqn:Htable.
    + unfold bind.
      destruct (handler w) as [[[] | e] w1] eqn:Hrun; [| discriminate].
      intros Hrest.
      rewrite (IH w1 Hrest).
      destruct (wired_handler_returns id handler w w1 Htable Hrun)
        as (Ht & _ & _).
      rewrite Ht, theme_changes_app.
      destruct (applies_images id); unfold theme_changes; simpl; lia.
    + intros Hrest.
      rewrite (unwired_applies_nothing id Htable).
      exact (IH w Hrest).
Qed.

(** X11. Every button that [PopulateOrExchange] creates with an id has a
    handler in the event table. *)
Theorem every_button_is_wired (id : Z) (label : string) :
  In (AddButton (Some id) label) PopulateOrExchange_calls ->
  exists handler, event_table id = Some handler.
Proof.
  unfold PopulateOrExchange_calls. simpl.
  intros H.
  repeat match goal with
         | H : _ \/ _ |- _ => destruct H as [H | H]
         | H : False |- _ => destruct H
         | H : _ = AddButton _ _ |- _ => inversion H; clear H; subst
         end;
    eexists; reflexivity.
Qed.

(** X12. If creating the image cache throws, the save-cache handler
    ends with that exception and does not go on to write the image map:
    the theme system is left as [CreateImageCache] left it. *)
Theorem failed_cache_skips_image_map
    (w : World) (e : exn) (t : ThemeState) :
  CreateImageCache (theTheme w) = (Thrown e, t) ->
  OnSaveThemeCache w
  = (Thrown e, mkWorld t (aColor w) (gPrefs w) (trace w)).
Proof.
  intros Hcreate.
  unfold OnSaveThemeCache, bind, on_theTheme.
  rewrite Hcreate. reflexivity.
Qed.

End ButtonPresses.


Lemma failed_button_press_notifies_nobody_witness :
  trace (@mkWorld Faulty.collaborators
           ["ReadImageCache"; "tried"] 1%nat Demo.prefs [])
  = trace Faulty.world /\
  1%nat = aColor Faulty.world /\
  Demo.prefs = gPrefs Faulty.world.
Proof.
  apply (@failed_button_press_notifies_nobody Faulty.collaborators
           idLoadThemeComponents
           (@OnLoadThemeComponents Faulty.collaborators)
           Faulty.world
           (@mkWorld Faulty.collaborators
              ["ReadImageCache"; "tried"] 1%nat Demo.prefs [])
           (unrelated_exception "disk error")).
  - reflexivity.
  - reflexivity.
Defined.

Lemma presses_count_notifications_witness :
  theme_changes [EventProcessed EVT_THEME_CHANGE;
                 EventProcessed EVT_THEME_CHANGE]
  = (theme_changes (trace Demo.world)
     + List.length
         (filter applies_images
            [idLoadThemeCache; idSaveThemeCache; 42%Z;
             idReadThemeInternal]))%nat.
Proof.
  apply (@presses_count_notifications Demo.collaborators
           [idLoadThemeCache; idSaveThemeCache; 42; idReadThemeInternal]
           Demo.world
           (@mkWorld Demo.collaborators
              ["ReadImageCache"; "ReadImageCache"; "CreateImageCache";
               "WriteImageMap"; "ReadImageCache"]
              5%nat Demo.prefs
              [EventProcessed EVT_THEME_CHANGE;
               EventProcessed EVT_THEME_CHANGE])).
  reflexivity.
Defined.

Lemma every_button_is_wired_witness :
  exists handler,
    @event_table Demo.collaborators idSaveThemeComponents = Some handler.
Proof.
  apply (@every_button_is_wired Demo.collaborators
           idSaveThemeComponents "Save Files").
  unfold PopulateOrExchange_calls.
  repeat (try (left; reflexivity); right).
Defined.

Lemma failed_cache_skips_image_map_witness :
  @OnSaveThemeCache Faulty.collaborators Faulty.world
  = (Thrown (unrelated_exception "disk error"),
     @mkWorld Faulty.collaborators
       ["ReadImageCache"; "tried"] 1%nat Demo.prefs []).
Proof.
  apply (@failed_cache_skips_image_map Faulty.collaborators
           Faulty.world (unrelated_exception "disk error")
           ["ReadImageCache"; "tried"]).
  reflexivity.
Defined.

Section EscapingExceptions.
Context {collaborators : Collaborators}.

(** X13. The only exceptions that leave the Load Theme Package handler
    are those opening or parsing raised and no [catch] clause names: an
    exception of one of the five failure classes never escapes, and a
    cancelled dialog never ends in an exception. *)
Theorem only_uncaught_exceptions_escape
    (user : FileDialogReply) (w w' : World) (e : exn) :
  OnLoadThemePackage user w = (Thrown e, w') ->
  modal_result user <> wxID_CANCEL /\
  package_fails (GetPath user) e /\
  failure_class e = None.
Proof.
  intros Hrun.
  destruct (Z.eq_dec (modal_result user) wxID_CANCEL) as [Hcancel | Hgo].
  { rewrite (OnLoadThemePackage_cancelled user w Hcancel) in Hrun.
    discriminate Hrun. }
  split; [exact Hgo |].
  assert (Hfailed : forall e0, package_fails (GetPath user) e0 ->
            package_fails (GetPath user) e /\ failure_class e = None).
  { intros e0 Hfail.
    destruct (OnLoadThemePackage_failed user w e0 Hgo Hfail)
      as (calls & _ & Hshape).
    rewrite Hshape in Hrun.
    destruct (OnLoadThemePackage_clauses e0) as [handler |] eqn:Hclause.
    - destruct (clause_is_one_message_box e0 handler Hclause)
        as (message & caption & ->).
      discriminate Hrun.
    - injection Hrun as <- _. split; [exact Hfail |].
      destruct e0 as [what | | | [|] | what];
        simpl in Hclause; try discriminate Hclause; reflexivity. }
  destruct (OpenPackage (GetPath user) default_package)
    as [opened | e0] eqn:Hopen.
  - destruct (ParsePackage opened) as [parsed | e0] eqn:Hparse.
    + rewrite OnLoadThemePackage_succeeded in Hrun;
        [discriminate Hrun | exact Hgo |].
      exists opened, parsed. split; assumption.
    + apply (Hfailed e0). right. exists opened. split; assumption.
  - apply (Hfailed e0). left. assumption.
Qed.

End EscapingExceptions.

Lemma only_uncaught_exceptions_escape_witness :
  modal_result (Demo.accepts "sunset.zip") <> wxID_CANCEL /\
  @package_fails Faulty.collaborators
    (GetPath (Demo.accepts "sunset.zip"))
    (unrelated_exception "disk error") /\
  failure_class (unrelated_exception "disk error") = None.
Proof.
  apply (@only_uncaught_exceptions_escape Faulty.collaborators
           (Demo.accepts "sunset.zip") Faulty.world
           (@mkWorld Faulty.collaborators ["ReadImageCache"] 1%nat
              Demo.prefs
              [FileDialogShown "Load Theme"; PackageOpened "sunset.zip"])
           (unrelated_exception "disk error")).
  reflexivity.
Defined.
